(** * The health-check view of [apps/health/views.py]

    A shallow embedding of [HealthCheckView] and of the few Python and
    framework notions its [get] method relies on:

    - Python classes with their bases, [issubclass] and [isinstance], so that
      the clause [except Exception] filters as it does in Python;
    - a state-and-exception monad: a statement maps a state to an outcome
      (a value or a raised exception) and the state it leaves behind, the
      effects made before a [raise] being kept;
    - the database collaborator ([django.db.connections]) as an interface
      whose two operations, subscripting and [cursor()], may change the
      world and may raise;
    - [rest_framework]'s [Response], and the host in front of the handler
      as the specification describes it: a router, a global authentication
      middleware and a flag by which a route bypasses it. *)

From stdpp Require Import base strings list gmap.

Local Open Scope string_scope.
Local Open Scope Z_scope.
Local Set Warnings "-register-all".

(** ** Python classes and exceptions *)

(** A class is known by its name and its direct bases. *)
Inductive pyclass : Type :=
| PyClass (name : string) (bases : list pyclass).

Fixpoint pyclass_eqb (c d : pyclass) : bool :=
  match c, d with
  | PyClass n bs, PyClass m ds =>
      String.eqb n m &&
      (fix all2 (l1 l2 : list pyclass) : bool :=
         match l1, l2 with
         | [], [] => true
         | x :: xs, y :: ys => pyclass_eqb x y && all2 xs ys
         | _, _ => false
         end) bs ds
  end.

(** [issubclass c d]: [d] is [c] or is reachable from [c] through bases. *)
Fixpoint issubclass (c d : pyclass) : bool :=
  pyclass_eqb c d ||
  match c with
  | PyClass _ bs => existsb (fun b => issubclass b d) bs
  end.

Definition object : pyclass := PyClass "object" [].
Definition BaseException : pyclass := PyClass "BaseException" [object].
Definition Exception : pyclass := PyClass "Exception" [BaseException].
Definition KeyboardInterrupt : pyclass := PyClass "KeyboardInterrupt" [BaseException].
Definition SystemExit : pyclass := PyClass "SystemExit" [BaseException].
Definition GeneratorExit : pyclass := PyClass "GeneratorExit" [BaseException].
Definition OSError : pyclass := PyClass "OSError" [Exception].
Definition TimeoutError : pyclass := PyClass "TimeoutError" [OSError].

(** Classes of [django.core.exceptions] and [django.db.utils]. *)
Definition ImproperlyConfigured : pyclass := PyClass "ImproperlyConfigured" [Exception].
Definition db_Error : pyclass := PyClass "Error" [Exception].
Definition DatabaseError : pyclass := PyClass "DatabaseError" [db_Error].
Definition OperationalError : pyclass := PyClass "OperationalError" [DatabaseError].

(** Classes of [rest_framework]: an error and a permission. *)
Definition APIException : pyclass := PyClass "APIException" [Exception].
Definition NotAuthenticated : pyclass := PyClass "NotAuthenticated" [APIException].
Definition BasePermission : pyclass := PyClass "BasePermission" [object].
Definition IsAuthenticated : pyclass := PyClass "IsAuthenticated" [BasePermission].

(** [derives c d]: [d] is [c] or an ancestor of [c]. *)
Inductive derives : pyclass -> pyclass -> Prop :=
| derives_refl c : derives c c
| derives_base n bs b d : b ∈ bs -> derives b d -> derives (PyClass n bs) d.

(** A raised object: its class and its message. *)
Record exn : Type := mk_exn { exn_class : pyclass; exn_args : string }.

Definition isinstance (e : exn) (c : pyclass) : bool := issubclass (exn_class e) c.

(** The result of running a statement or an expression. *)
Inductive outcome (A : Type) : Type :=
| Returns (a : A)
| Raises (e : exn).
Arguments Returns {A} a.
Arguments Raises {A} e.

(** ** The request and the response *)

(** What an inbound request carries. *)
Record HttpRequest : Type := mk_request {
  method : string;
  path : string;
  query_params : list (string * string);
  headers : list (string * string);
  body : string
}.

(** A request carries credentials in its [Authorization] or [Cookie]
    header. *)
Definition has_credentials (request : HttpRequest) : bool :=
  existsb (fun h => String.eqb h.1 "Authorization" || String.eqb h.1 "Cookie")
          (headers request).

(** [rest_framework.response.Response]: the data handed to the renderer and
    the HTTP status code. *)
Record Response : Type := mk_response {
  data : gmap string string;
  status_code : Z
}.

(** [Response(data, status=None)]: when [status] is omitted the code stays
    at [HttpResponseBase.status_code], which is 200. *)
Definition Response_init (d : gmap string string) (status : option Z) : Response :=
  {| data := d; status_code := default 200 status |}.

(** ** The database collaborator *)

(** [django.db.connections] seen from the view: a world that the two
    operations read and may change, connections obtained by alias and
    cursors obtained from a connection. Either operation may raise. *)
Class Backend : Type := {
  World : Type;
  Conn : Type;
  Cursor : Type;
  connections_getitem : string -> World -> outcome Conn * World;
  conn_cursor : Conn -> World -> outcome Cursor * World
}.

Section View.
Context `{B : Backend}.

(** The attributes stored on a view instance hold objects the model does
    not look into. *)
Context {Obj : Type}.

(** Calls made to the collaborator, in order. *)
Inductive event : Type :=
| EvGetItem (alias : string)
| EvCursor (c : Conn).

Definition is_getitem (ev : event) : bool :=
  match ev with EvGetItem _ => true | EvCursor _ => false end.

Definition is_cursor (ev : event) : bool :=
  match ev with EvCursor _ => true | EvGetItem _ => false end.

Definition getitem_calls (t : list event) : nat := length (List.filter is_getitem t).
Definition cursor_calls (t : list event) : nat := length (List.filter is_cursor t).

(** The state a request handler runs in: the instance dictionary of [self],
    the world behind the collaborator, and the calls made so far. *)
Record state : Type := mk_state {
  self_dict : gmap string Obj;
  world : World;
  trace : list event
}.

(** The calls recorded between an earlier state and a later one. *)
Definition events_since (s s' : state) : list event :=
  drop (length (trace s)) (trace s').

(** *** Statements *)

Definition M (A : Type) : Type := state -> outcome A * state.

Definition ret {A : Type} (a : A) : M A := fun s => (Returns a, s).

Definition bind {A C : Type} (m : M A) (k : A -> M C) : M C :=
  fun s =>
    match m s with
    | (Returns a, s') => k a s'
    | (Raises e, s') => (Raises e, s')
    end.

Definition raise {A : Type} (e : exn) : M A := fun s => (Raises e, s).

(** [try: body / except cls as exc: handler]. An exception that is not an
    instance of [cls] goes on to the caller. *)
Definition try_except {A : Type} (body : M A) (cls : pyclass) (handler : exn -> M A) : M A :=
  fun s =>
    match body s with
    | (Returns a, s') => (Returns a, s')
    | (Raises e, s') => if isinstance e cls then handler e s' else (Raises e, s')
    end.

Notation "x <- m ;; k" := (bind m (fun x => k))
  (at level 100, m at next level, right associativity).
Notation "m ;;; k" := (bind m (fun _ => k))
  (at level 100, right associativity).

(** [connections[alias]] *)
Definition call_getitem (alias : string) : M Conn :=
  fun s =>
    let '(r, w) := connections_getitem alias (world s) in
    (r, {| self_dict := self_dict s; world := w;
           trace := trace s ++ [EvGetItem alias] |}).

(** [conn.cursor()] *)
Definition call_cursor (c : Conn) : M Cursor :=
  fun s =>
    let '(r, w) := conn_cursor c (world s) in
    (r, {| self_dict := self_dict s; world := w;
           trace := trace s ++ [EvCursor c] |}).

(** *** [HealthCheckView] *)

(** The probe, [connections["default"].cursor()]. *)
Definition probe : M Cursor :=
  conn <- call_getitem "default" ;;
  call_cursor conn.

(** [def get(self, request)] *)
Definition get (request : HttpRequest) : M Response :=
  db_status <- try_except (probe ;;; ret "up") Exception (fun _ => ret "down") ;;
  ret (Response_init {[ "status" := "ok"; "database" := db_status ]} None).

(** Invocations of [get] in turn, one per request, on one view: what each
    returned or raised, and the state left at the end. *)
Fixpoint serve (requests : list HttpRequest) (s : state)
  : list (outcome Response) * state :=
  match requests with
  | [] => ([], s)
  | request :: rest =>
      ((get request s).1 :: (serve rest (get request s).2).1,
       (serve rest (get request s).2).2)
  end.

(** [authentication_classes = []] and [permission_classes = []]: lists of
    classes. *)
Definition authentication_classes : list pyclass := [].
Definition permission_classes : list pyclass := [].

(** *** The host in front of the handler *)

(** Modelled from the spec: the host framework in front of the handler,
    which is [rest_framework]'s [APIView] with the router and of which the
    repository holds nothing. The spec names two parts of it: request
    dispatch by an external router (sections 1, 2 and 6) and a global
    authentication and authorization middleware (section 6). What either
    lets through is the host's own matter, and either may read and change
    the state, so both are left open. *)
Record Host : Type := mk_host {
  host_routing : HttpRequest -> M unit;
  global_auth : HttpRequest -> M unit
}.

(** Modelled from the spec: a route registration, as section 9 gives it: a
    handler and the flag [requireAuth]. *)
Record Route : Type := mk_route {
  requireAuth : bool;
  route_handler : HttpRequest -> M Response
}.

(** Modelled from the spec: the flag the two class attributes of a view
    abstract to (section 9): a view that names no authentication class and
    no permission class has disabled authentication, [requireAuth] false. *)
Definition requireAuth_of (auths perms : list pyclass) : bool :=
  match auths, perms with
  | [], [] => false
  | _, _ => true
  end.

(** Modelled from the spec: how the host serves a request on a route: its
    routing, then the global middleware unless the route bypasses it
    (section 6), then the handler. A stage that raises ends the request. *)
Definition route_dispatch (h : Host) (rt : Route) (request : HttpRequest) : M Response :=
  host_routing h request ;;;
  (if requireAuth rt then global_auth h request else ret tt) ;;;
  route_handler rt request.

(** The route of [HealthCheckView]. *)
Definition health_route : Route :=
  {| requireAuth := requireAuth_of authentication_classes permission_classes;
     route_handler := get |}.

(** A route to the same handler for a view that lists [IsAuthenticated]. *)
Definition guarded_route : Route :=
  {| requireAuth := requireAuth_of [] [IsAuthenticated];
     route_handler := get |}.

End View.

(** ** Concrete collaborators and a concrete host *)

(** A scripted collaborator, as a test double: the world says what the
    lookup of an alias gives and what [cursor()] gives, and counts the calls
    it has served. Connections and cursors are numbered. *)
Record script : Type := mk_script {
  on_getitem : outcome nat;
  on_cursor : outcome nat;
  served : nat
}.

Definition scripted : Backend := {|
  World := script;
  Conn := nat;
  Cursor := nat;
  connections_getitem := fun _ w =>
    (on_getitem w, mk_script (on_getitem w) (on_cursor w) (S (served w)));
  conn_cursor := fun _ w =>
    (on_cursor w, mk_script (on_getitem w) (on_cursor w) (S (served w)))
|}.

(** A scripted collaborator that keeps no count: its two operations answer
    and leave the world as it is. *)
Definition scripted_readonly : Backend := {|
  World := script;
  Conn := nat;
  Cursor := nat;
  connections_getitem := fun _ w => (on_getitem w, w);
  conn_cursor := fun _ w => (on_cursor w, w)
|}.

(** A collaborator that hands out a limited number of cursors: the world is
    the number left, and each [cursor()] that returns takes one. *)
Definition rationed : Backend := {|
  World := nat;
  Conn := unit;
  Cursor := nat;
  connections_getitem := fun _ w => (Returns tt, w);
  conn_cursor := fun _ w =>
    match w with
    | O => (Raises (mk_exn OperationalError "too many connections"), O)
    | S n => (Returns n, n)
    end
|}.

(** A host that routes every request and whose middleware refuses a
    request without credentials. *)
Definition strict_host {B : Backend} {Obj : Type} : @Host B Obj :=
  {| host_routing := fun _ => ret tt;
     global_auth := fun request =>
       if has_credentials request then ret tt
       else raise (mk_exn NotAuthenticated
                          "Authentication credentials were not provided.") |}.

(** A request of a load balancer: no credentials, no parameters, no body. *)
Definition bare_request : HttpRequest :=
  {| method := "GET"; path := "/health"; query_params := []; headers := []; body := "" |}.

(** A request with a token, a query string and a body. *)
Definition busy_request : HttpRequest :=
  {| method := "GET"; path := "/health";
     query_params := [("verbose", "1")];
     headers := [("Authorization", "Bearer abc"); ("Accept", "text/html")];
     body := "ping" |}.

(** A fresh view instance in front of the scripted collaborator. *)
Definition start (w : script) : @state scripted unit :=
  @mk_state scripted unit ∅ w [].

(** A fresh view instance in front of the read-only collaborator. *)
Definition start_readonly (w : script) : @state scripted_readonly unit :=
  @mk_state scripted_readonly unit ∅ w [].

(** Worlds for the scripted collaborator. *)
Definition w_up : script :=
  mk_script (Returns 1%nat) (Returns 7%nat) 0.
Definition w_up_again : script :=
  mk_script (Returns 2%nat) (Returns 9%nat) 5.
Definition w_timeout : script :=
  mk_script (Returns 1%nat) (Raises (mk_exn TimeoutError "timed out")) 0.
Definition w_auth_failure : script :=
  mk_script (Returns 1%nat)
            (Raises (mk_exn OperationalError "password authentication failed")) 0.
Definition w_unconfigured : script :=
  mk_script (Raises (mk_exn ImproperlyConfigured "You must define a 'default' database."))
            (Returns 7%nat) 0.
Definition w_interrupted : script :=
  mk_script (Returns 1%nat) (Raises (mk_exn KeyboardInterrupt "")) 0.
Definition w_exiting : script :=
  mk_script (Returns 1%nat) (Raises (mk_exn SystemExit "1")) 0.

(** Shorthands: the response [get] builds around a database status, and a
    run from a fresh view in front of the scripted collaborator. *)
Local Abbreviation health db :=
  (Response_init {[ "status" := "ok"; "database" := db ]} None).
Local Abbreviation run m w := (m (start w)).

(** * Properties *)

(** ** Classes *)

(** Induction on a class with the property at hand for all its bases. *)
Lemma pyclass_bases_ind (Q : pyclass → Prop) :
  (∀ n bs, Forall Q bs → Q (PyClass n bs)) → ∀ c, Q c.
Proof.
  intros Hstep. fix IH 1. intros [n bs]. apply Hstep.
  induction bs as [|b bs IHbs]; constructor; [apply IH | exact IHbs].
Qed.

Lemma pyclass_eqb_refl c : pyclass_eqb c c = true.
Proof.
  induction c as [n bs IHbs] using pyclass_bases_ind.
  simpl. rewrite String.eqb_refl. simpl.
  induction IHbs as [|b bs Hb _ IH]; [done|]. by rewrite Hb.
Qed.

Lemma pyclass_eqb_eq c d : pyclass_eqb c d = true → c = d.
Proof.
  revert d. induction c as [n bs IHbs] using pyclass_bases_ind.
  intros [m ds]. simpl.
  intros [Hn Hbs]%andb_true_iff. apply String.eqb_eq in Hn. subst m. f_equal.
  revert ds Hbs. induction IHbs as [|b bs Hb _ IH]; intros [|d ds] Hbs; try done.
  apply andb_true_iff in Hbs as [Hbd Hbs].
  f_equal; [by apply Hb | by apply IH].
Qed.

Lemma issubclass_refl c : issubclass c c = true.
Proof.
  destruct c as [n bs]. unfold issubclass; fold issubclass.
  by rewrite pyclass_eqb_refl.
Qed.

Lemma issubclass_base n bs b d :
  b ∈ bs → issubclass b d = true → issubclass (PyClass n bs) d = true.
Proof.
  intros Hb Hd. unfold issubclass; fold issubclass.
  apply orb_true_iff. right. apply existsb_exists.
  exists b. split; [by apply list_elem_of_In | done].
Qed.

(** [issubclass] decides [derives]. *)
Lemma issubclass_derives c d : issubclass c d = true ↔ derives c d.
Proof.
  split.
  - induction c as [n bs IHbs] using pyclass_bases_ind.
    unfold issubclass; fold issubclass.
    intros [Heq | Hex]%orb_true_iff.
    + apply pyclass_eqb_eq in Heq. rewrite <- Heq. constructor.
    + apply existsb_exists in Hex as (b & Hin & Hb).
      apply list_elem_of_In in Hin.
      apply derives_base with b; [done|].
      rewrite Forall_forall in IHbs. by apply IHbs.
  - induction 1 as [c | n bs b d Hin _ IHd].
    + apply issubclass_refl.
    + by eapply issubclass_base.
Qed.

(** A class that lists [Exception] among its bases is caught by
    [except Exception], whatever it is called. *)
Lemma direct_subclass_is_caught n bs msg :
  Exception ∈ bs → isinstance (mk_exn (PyClass n bs) msg) Exception = true.
Proof.
  intros Hin. unfold isinstance. simpl exn_class.
  eapply issubclass_base; [done | apply issubclass_refl].
Qed.

(** The built-in hierarchy: what [except Exception] lets through. *)
Lemma builtin_hierarchy :
  issubclass Exception BaseException = true ∧
  issubclass KeyboardInterrupt BaseException = true ∧
  issubclass KeyboardInterrupt Exception = false ∧
  issubclass SystemExit BaseException = true ∧
  issubclass SystemExit Exception = false ∧
  issubclass GeneratorExit Exception = false ∧
  issubclass TimeoutError Exception = true ∧
  issubclass OperationalError Exception = true ∧
  issubclass ImproperlyConfigured Exception = true.
Proof. repeat split; reflexivity. Qed.

(** ** The handler *)

Section Properties.
Context `{B : Backend} {Obj : Type}.
Implicit Types (s : @state B Obj) (request : HttpRequest).

(** The probe is one lookup and, when the lookup returns, one [cursor()]. *)
Lemma probe_unfold s :
  probe s =
  match connections_getitem "default" (world s) with
  | (Returns c, w1) =>
      ((conn_cursor c w1).1,
       mk_state (self_dict s) (conn_cursor c w1).2
                (trace s ++ [EvGetItem "default"; EvCursor c]))
  | (Raises e, w1) =>
      (Raises e, mk_state (self_dict s) w1 (trace s ++ [EvGetItem "default"]))
  end.
Proof.
  unfold probe, bind, call_getitem, call_cursor.
  destruct (connections_getitem "default" (world s)) as [[c|e] w1]; simpl; [|done].
  destruct (conn_cursor c w1) as [r w2]. simpl. by rewrite <- app_assoc.
Qed.

(** Case analysis on the lookup of the default connection. *)
Ltac lookup_cases s :=
  rewrite ?probe_unfold;
  destruct (connections_getitem "default" (world s)) as [[?c|?e] ?w]; simpl; try done.

Lemma probe_outcome s :
  (probe s).1 =
  match connections_getitem "default" (world s) with
  | (Returns c, w1) => (conn_cursor c w1).1
  | (Raises e, _) => Raises e
  end.
Proof. lookup_cases s. Qed.

Lemma probe_self_dict s : self_dict (probe s).2 = self_dict s.
Proof. lookup_cases s. Qed.

Lemma probe_world s :
  world (probe s).2 =
  match connections_getitem "default" (world s) with
  | (Returns c, w1) => (conn_cursor c w1).2
  | (Raises _, w1) => w1
  end.
Proof. lookup_cases s. Qed.

Lemma probe_trace s :
  trace (probe s).2 =
  (trace s ++ match (connections_getitem "default" (world s)).1 with
              | Returns c => [EvGetItem "default"; EvCursor c]
              | Raises _ => [EvGetItem "default"]
              end)%list.
Proof. lookup_cases s. Qed.

(** [get] by the outcome of the probe. *)
Lemma get_unfold request s :
  get request s =
  match probe s with
  | (Returns _, s') => (Returns (health "up"), s')
  | (Raises e, s') =>
      if isinstance e Exception then (Returns (health "down"), s') else (Raises e, s')
  end.
Proof.
  unfold get, bind, try_except, ret.
  destruct (probe s) as [[c|e] s']; [done|].
  by destruct (isinstance e Exception).
Qed.

(** Case analysis on the outcome of the probe. *)
Ltac probe_cases s :=
  rewrite ?get_unfold;
  destruct (probe s) as [[?c|?e] ?s']; simpl;
  [| destruct (isinstance _ Exception) eqn:?He; simpl ].

(** What [get] does to the state is what the probe does to it. *)
Lemma get_state request s : (get request s).2 = (probe s).2.
Proof. by probe_cases s. Qed.

(** What [get] returns or raises follows from the outcome of the probe. *)
Lemma get_outcome request s :
  (get request s).1 =
  match (probe s).1 with
  | Returns _ => Returns (health "up")
  | Raises e => if isinstance e Exception then Returns (health "down") else Raises e
  end.
Proof. probe_cases s; by rewrite ?He. Qed.

Lemma health_status db : data (health db) !! "status" = Some "ok".
Proof. simpl. apply lookup_insert_eq. Qed.

Lemma health_database db : data (health db) !! "database" = Some db.
Proof. simpl. rewrite lookup_insert_ne by done. apply lookup_singleton_eq. Qed.

Lemma health_dom db : dom (data (health db)) = ({[ "status"; "database" ]} : gset string).
Proof. simpl. by rewrite dom_insert_L, dom_singleton_L. Qed.

(** What [get] lets through is not an instance of [Exception]. *)
Lemma get_raises_outside_exception request s e :
  (get request s).1 = Raises e → isinstance e Exception = false.
Proof. probe_cases s; [done | done | by intros [= <-]]. Qed.

Lemma get_code_cases request s :
  match (get request s).1 with
  | Returns r => status_code r = 200
  | Raises e => (probe s).1 = Raises e ∧ isinstance e Exception = false
  end.
Proof. by probe_cases s. Qed.

(** C1: whenever [get] returns a body, the body's ["status"] is ["ok"],
    whether the probe returned or raised; and [get] returns a body in every
    case but one, the probe raising an error outside [Exception]. *)
Theorem get_status_is_ok request s :
  match (get request s).1 with
  | Returns r => data r !! "status" = Some "ok"
  | Raises e => (probe s).1 = Raises e ∧ isinstance e Exception = false
  end.
Proof. probe_cases s; [apply health_status | apply health_status | done]. Qed.

(** C2, amended: a probe error that is an instance of [Exception] is caught:
    [get] raises nothing and returns a body whose ["database"] is
    ["down"]. *)
Theorem get_catches_exception request s e :
  (probe s).1 = Raises e →
  isinstance e Exception = true →
  ∃ r, (get request s).1 = Returns r ∧ data r !! "database" = Some "down".
Proof.
  intros Hp He. rewrite get_outcome, Hp, He.
  eexists; split; [done | apply health_database].
Qed.

(** C3: when the probe returns a cursor, [get] returns a body whose
    ["database"] is ["up"]. *)
Theorem get_probe_ok_up request s c :
  (probe s).1 = Returns c →
  ∃ r, (get request s).1 = Returns r ∧ data r !! "database" = Some "up".
Proof.
  intros Hp. rewrite get_outcome, Hp.
  eexists; split; [done | apply health_database].
Qed.

(** C4: every response [get] returns has status code 200, also when the
    probe failed; [get] returns no response only when the probe raised an
    error outside [Exception], which it lets through. *)
Theorem get_status_code_200 request s :
  match (get request s).1 with
  | Returns r => status_code r = 200
  | Raises e => (probe s).1 = Raises e ∧ isinstance e Exception = false
  end.
Proof. apply get_code_cases. Qed.

(** C5, amended: [get] evaluates the probe once. It looks the default
    connection up exactly once and asks for a cursor at most once: once,
    on the connection found, when the lookup returns, and not at all when
    the lookup raises. Nothing is retried or repeated. *)
Theorem get_probes_once request s :
  trace (get request s).2 = (trace s ++ events_since s (get request s).2)%list ∧
  events_since s (get request s).2 =
    match (connections_getitem "default" (world s)).1 with
    | Returns c => [EvGetItem "default"; EvCursor c]
    | Raises _ => [EvGetItem "default"]
    end ∧
  getitem_calls (events_since s (get request s).2) = 1%nat ∧
  (cursor_calls (events_since s (get request s).2) ≤ 1)%nat ∧
  cursor_calls (events_since s (get request s).2) =
    match (connections_getitem "default" (world s)).1 with
    | Returns _ => 1%nat
    | Raises _ => 0%nat
    end.
Proof.
  assert (He : events_since s (get request s).2 =
               match (connections_getitem "default" (world s)).1 with
               | Returns c => [EvGetItem "default"; EvCursor c]
               | Raises _ => [EvGetItem "default"]
               end).
  { unfold events_since. by rewrite get_state, probe_trace, drop_app_length. }
  rewrite He, get_state, probe_trace. split; [done|]. split; [done|].
  destruct (connections_getitem "default" (world s)).1; simpl;
    unfold getitem_calls, cursor_calls; simpl; repeat split; lia.
Qed.

(** [get] never reads its argument. *)
Lemma get_request_irrelevant request1 request2 s :
  get request1 s = get request2 s.
Proof. reflexivity. Qed.

(** C7: [get] does not look at the request: two requests, whatever they
    carry, give the same outcome and the same final state from the same
    state; and from any two states in which the probe has the same outcome
    they give the same outcome. *)
Theorem get_ignores_request :
  (∀ request1 request2 s, get request1 s = get request2 s) ∧
  (∀ request1 request2 s1 s2,
     (probe s1).1 = (probe s2).1 →
     (get request1 s1).1 = (get request2 s2).1).
Proof.
  split; [done|].
  intros request1 request2 s1 s2 Hp. by rewrite !get_outcome, Hp.
Qed.

(** The outcome of the probe and the world it leaves depend on the world it
    starts in, not on the view's dictionary or on earlier calls. *)
Lemma probe_depends_on_world s1 s2 :
  world s1 = world s2 →
  (probe s1).1 = (probe s2).1 ∧ world (probe s1).2 = world (probe s2).2.
Proof. intros Hw. by rewrite !probe_outcome, !probe_world, Hw. Qed.

(** A probe whose two operations leave the world as it is leaves the world
    as it is. *)
Lemma probe_world_readonly s :
  (∀ alias w, (connections_getitem alias w).2 = w) →
  (∀ c w, (conn_cursor c w).2 = w) →
  world (probe s).2 = world s.
Proof.
  intros Hg Hc. rewrite probe_world.
  pose proof (Hg "default" (world s)) as Hg'.
  destruct (connections_getitem "default" (world s)) as [[c|e] w1]; simpl in *.
  - by rewrite Hc.
  - done.
Qed.

(** C8: [get] leaves the instance dictionary of the view as it was; its
    effect on the state is the probe's, which changes the world by its two
    calls and by nothing else; neither its outcome nor its effect on the
    world depends on the dictionary or on the calls made before, so an
    invocation that follows another behaves as a fresh view would in the
    world left behind. And when the probe is read-only, its two operations
    leaving the world as it is, [get] writes to no store: the world after
    it is the world before it, and an invocation that follows answers and
    leaves the world exactly as it would have done had the first not been
    made. *)
Theorem get_is_stateless request s :
  self_dict (get request s).2 = self_dict s ∧
  (get request s).2 = (probe s).2 ∧
  world (get request s).2 =
    match connections_getitem "default" (world s) with
    | (Returns c, w1) => (conn_cursor c w1).2
    | (Raises _, w1) => w1
    end ∧
  (∀ (d : gmap string Obj) (t : list event),
     (get request (mk_state d (world s) t)).1 = (get request s).1 ∧
     world (get request (mk_state d (world s) t)).2 = world (get request s).2) ∧
  (∀ request', (get request' (get request s).2).1 =
               (get request' (mk_state (Obj := Obj) ∅ (world (get request s).2) [])).1) ∧
  ((∀ alias w, (connections_getitem alias w).2 = w) →
   (∀ c w, (conn_cursor c w).2 = w) →
   world (get request s).2 = world s ∧
   ∀ request',
     (get request' (get request s).2).1 = (get request' s).1 ∧
     world (get request' (get request s).2).2 = world (get request' s).2 ∧
     world (get request' (get request s).2).2 = world s).
Proof.
  assert (Hind : ∀ request' s1 s2, world s1 = world s2 →
            (get request' s1).1 = (get request' s2).1 ∧
            world (get request' s1).2 = world (get request' s2).2).
  { intros request' s1 s2 Hw. rewrite !get_outcome, !get_state.
    by destruct (probe_depends_on_world s1 s2 Hw) as [-> ->]. }
  split; [by rewrite get_state, probe_self_dict|].
  split; [apply get_state|].
  split; [by rewrite get_state, probe_world|].
  split; [intros d t; by apply Hind|].
  split; [intros request'; by apply Hind|].
  intros Hg Hc.
  assert (Hw : ∀ request' s', world (get request' s').2 = world s').
  { intros request' s'. rewrite get_state. by apply probe_world_readonly. }
  split; [apply Hw|]. intros request'.
  destruct (Hind request' (get request s).2 s (Hw request s)) as [Ho Hw'].
  split; [done|]. split; [done|]. by rewrite !Hw.
Qed.

(** C9: [get] raises an error exactly when the probe raised it and it is not
    an instance of [Exception]; the error that comes out is the probe's.
    [KeyboardInterrupt] and [SystemExit], which derive from [BaseException]
    and not from [Exception], are such errors. *)
Theorem get_propagates_outside_exception request s e :
  ((get request s).1 = Raises e ↔
   (probe s).1 = Raises e ∧ isinstance e Exception = false) ∧
  issubclass KeyboardInterrupt BaseException = true ∧
  issubclass KeyboardInterrupt Exception = false ∧
  issubclass SystemExit BaseException = true ∧
  issubclass SystemExit Exception = false.
Proof.
  split; [|repeat split; reflexivity].
  probe_cases s.
  - split; [done | by intros [? _]].
  - split; [done | intros [[= ->] ?]; congruence].
  - split; [by intros [= ->] | by intros [[= ->] _]].
Qed.

(** C10: a body returned by [get] has the two keys ["status"] and
    ["database"] and no other, ["status"] is ["ok"] and ["database"] is
    ["up"] or ["down"]; and the cursor the probe returned does not show:
    any two invocations whose probes return, whatever the cursors, return
    the same response. *)
Theorem get_body_shape :
  (∀ request s r,
     (get request s).1 = Returns r →
     dom (data r) = ({[ "status"; "database" ]} : gset string) ∧
     data r !! "status" = Some "ok" ∧
     (data r !! "database" = Some "up" ∨ data r !! "database" = Some "down")) ∧
  (∀ request1 request2 s1 s2 c1 c2,
     (probe s1).1 = Returns c1 →
     (probe s2).1 = Returns c2 →
     (get request1 s1).1 = (get request2 s2).1).
Proof.
  split.
  - intros request s r. probe_cases s; [| |done]; intros [= <-];
      (split; [apply health_dom|]); (split; [apply health_status|]);
      [left | right]; apply health_database.
  - intros request1 request2 s1 s2 c1 c2 H1 H2.
    by rewrite !get_outcome, H1, H2.
Qed.

(** *** Beyond one invocation *)

Lemma events_since_app s s' (evs : list event) :
  trace s' = (trace s ++ evs)%list → events_since s s' = evs.
Proof. intros Ht. unfold events_since. by rewrite Ht, drop_app_length. Qed.

Lemma getitem_calls_app (t1 t2 : list event) :
  getitem_calls (t1 ++ t2) = (getitem_calls t1 + getitem_calls t2)%nat.
Proof. unfold getitem_calls. by rewrite List.filter_app, length_app. Qed.

Lemma cursor_calls_app (t1 t2 : list event) :
  cursor_calls (t1 ++ t2) = (cursor_calls t1 + cursor_calls t2)%nat.
Proof. unfold cursor_calls. by rewrite List.filter_app, length_app. Qed.

(** X1: the report is truthful. In a body [get] returns, ["database"] is
    ["up"] exactly when the probe returned a cursor, and ["down"] exactly
    when the probe raised an instance of [Exception]. *)
Theorem get_report_is_truthful request s r :
  (get request s).1 = Returns r →
  (data r !! "database" = Some "up" ↔ ∃ c, (probe s).1 = Returns c) ∧
  (data r !! "database" = Some "down" ↔
   ∃ e, (probe s).1 = Raises e ∧ isinstance e Exception = true).
Proof.
  probe_cases s; [| |done]; intros [= <-]; rewrite health_database.
  - split; split; [by eauto | done | done | by intros (? & ? & _)].
  - split; split; [done | by intros [? ?] | by eauto | done].
Qed.

(** X2: a caught error leaves no mark of its own. Whatever the class and
    the message of the error, and whichever of the lookup and [cursor()]
    raised it, the response is the same. *)
Theorem get_swallows_error_detail request1 request2 s1 s2 e1 e2 :
  (probe s1).1 = Raises e1 →
  (probe s2).1 = Raises e2 →
  isinstance e1 Exception = true →
  isinstance e2 Exception = true →
  (get request1 s1).1 = (get request2 s2).1.
Proof. intros H1 H2 He1 He2. by rewrite !get_outcome, H1, H2, He1, He2. Qed.

(** The calls [serve] adds to the trace. *)
Lemma serve_trace requests s :
  ∃ evs : list event,
    trace (serve requests s).2 = (trace s ++ evs)%list ∧
    getitem_calls evs = length requests ∧
    (cursor_calls evs ≤ length requests)%nat.
Proof.
  revert s. induction requests as [|request rest IH]; intros s; simpl.
  - exists []. by rewrite app_nil_r.
  - destruct (IH (get request s).2) as (evs & Ht & Hg & Hc).
    destruct (get_probes_once request s) as (Ht1 & _ & Hg1 & Hc1 & _).
    exists (events_since s (get request s).2 ++ evs)%list.
    rewrite Ht, Ht1 at 1. rewrite <- app_assoc.
    rewrite getitem_calls_app, cursor_calls_app.
    split; [done|]. split; lia.
Qed.

(** X3: invocations compose without carrying anything over. After any run
    of requests on one view there is one outcome per request, the view's
    dictionary is as it was, the default connection was looked up once per
    request and a cursor was asked for at most once per request. *)
Theorem serve_probes_once_each requests s :
  length (serve requests s).1 = length requests ∧
  self_dict (serve requests s).2 = self_dict s ∧
  getitem_calls (events_since s (serve requests s).2) = length requests ∧
  (cursor_calls (events_since s (serve requests s).2) ≤ length requests)%nat.
Proof.
  split; [|split].
  - revert s. induction requests as [|request rest IH]; intros s; simpl; [done|].
    by rewrite IH.
  - revert s. induction requests as [|request rest IH]; intros s; simpl; [done|].
    by rewrite IH, get_state, probe_self_dict.
  - destruct (serve_trace requests s) as (evs & Ht & Hg & Hc).
    by rewrite (events_since_app _ _ _ Ht).
Qed.

(** X4: in front of a collaborator whose two operations leave the world as
    it is, [get] leaves the world as it is, and asking again gives the same
    outcome, whatever the next request carries. *)
Theorem get_readonly_on_readonly_collaborator request s :
  (∀ alias w, (connections_getitem alias w).2 = w) →
  (∀ c w, (conn_cursor c w).2 = w) →
  world (get request s).2 = world s ∧
  ∀ request', (get request' (get request s).2).1 = (get request s).1.
Proof.
  intros Hg Hc.
  assert (Hw : world (get request s).2 = world s).
  { rewrite get_state, probe_world.
    pose proof (Hg "default" (world s)) as Hg'.
    destruct (connections_getitem "default" (world s)) as [[c|e] w1]; simpl in *.
    - by rewrite Hc.
    - done. }
  split; [done|]. intros request'.
  rewrite !get_outcome.
  by destruct (probe_depends_on_world (get request s).2 s Hw) as [-> _].
Qed.

End Properties.

(** ** The view's route *)

Section Policy.
Context `{B : Backend} {Obj : Type}.
Implicit Types (s : @state B Obj) (request : HttpRequest) (h : @Host B Obj).

(** On a route that bypasses the middleware a request goes from the host's
    routing to the handler. *)
Lemma route_dispatch_bypass h handler request s :
  route_dispatch h (mk_route false handler) request s =
  match host_routing h request s with
  | (Returns _, s1) => handler request s1
  | (Raises e, s1) => (Raises e, s1)
  end.
Proof.
  unfold route_dispatch, bind, ret. simpl.
  by destruct (host_routing h request s) as [[[]|e] s1].
Qed.

(** On a route that requires authentication the middleware stands between
    the routing and the handler. *)
Lemma route_dispatch_guarded h handler request s :
  route_dispatch h (mk_route true handler) request s =
  match host_routing h request s with
  | (Returns _, s1) =>
      match global_auth h request s1 with
      | (Returns _, s2) => handler request s2
      | (Raises e, s2) => (Raises e, s2)
      end
  | (Raises e, s1) => (Raises e, s1)
  end.
Proof.
  unfold route_dispatch, bind. simpl.
  destruct (host_routing h request s) as [[[]|e] s1]; [|done].
  by destruct (global_auth h request s1) as [[[]|e] s2].
Qed.

(** C6: the view names no authentication class and no permission class, so
    its route does not require authentication: the global middleware is
    never run for it, whatever it would decide, and a request the host has
    routed, with or without credentials, is handed to [get] and answered
    by it, with a 200 unless the probe raised an error outside
    [Exception]. *)
Theorem health_view_needs_no_credentials :
  authentication_classes = [] ∧
  permission_classes = [] ∧
  requireAuth (@health_route B Obj) = false ∧
  (∀ h1 h2 request s,
     host_routing h1 = host_routing h2 →
     route_dispatch h1 health_route request s =
     route_dispatch h2 health_route request s) ∧
  (∀ h request s s1,
     host_routing h request s = (Returns tt, s1) →
     route_dispatch h health_route request s = get request s1 ∧
     match (route_dispatch h health_route request s).1 with
     | Returns r => status_code r = 200
     | Raises e => (probe s1).1 = Raises e ∧ isinstance e Exception = false
     end).
Proof.
  assert (Hb : ∀ h request s,
            route_dispatch h health_route request s =
            match host_routing h request s with
            | (Returns _, s1) => get request s1
            | (Raises e, s1) => (Raises e, s1)
            end).
  { intros h request s. apply (route_dispatch_bypass h get). }
  split; [done|]. split; [done|]. split; [done|]. split.
  - intros h1 h2 request s Hr. by rewrite !Hb, Hr.
  - intros h request s s1 Hr. rewrite Hb, Hr.
    split; [done | apply get_code_cases].
Qed.

End Policy.

(** ** Runs on the scripted collaborator *)

(** The three scenarios: a healthy database, a timeout, an authentication
    failure inside the database. *)
Example scenario_healthy :
  (run (get bare_request) w_up).1 = Returns (health "up").
Proof. reflexivity. Qed.

Example scenario_timeout :
  (run (get bare_request) w_timeout).1 = Returns (health "down").
Proof. reflexivity. Qed.

Example scenario_auth_failure :
  (run (get bare_request) w_auth_failure).1 = Returns (health "down").
Proof. reflexivity. Qed.

(** The middleware is not idle in general: under the strict host the
    guarded route refuses the bare request before its handler runs, so no
    call reaches the collaborator, while the health route answers it. *)
Example guarded_route_refuses_bare_request :
  has_credentials bare_request = false ∧
  requireAuth (@guarded_route scripted unit) = true ∧
  run (route_dispatch strict_host guarded_route bare_request) w_up
  = (Raises (mk_exn NotAuthenticated "Authentication credentials were not provided."),
     start w_up) ∧
  (run (route_dispatch strict_host health_route bare_request) w_up).1
  = Returns (health "up").
Proof. repeat split; reflexivity. Qed.

(** A collaborator that writes is remembered by the collaborator, not by
    the view: with one cursor left the first invocation reports ["up"] and
    the second ["down"], and the view's dictionary is empty throughout. *)
Example rationed_collaborator_remembers :
  (get bare_request (@mk_state rationed unit ∅ 1%nat [])).1 = Returns (health "up") ∧
  (get bare_request (get bare_request (@mk_state rationed unit ∅ 1%nat [])).2).1
  = Returns (health "down") ∧
  self_dict (get bare_request (get bare_request (@mk_state rationed unit ∅ 1%nat [])).2).2
  = ∅.
Proof. repeat split; reflexivity. Qed.

(** A timeout raised by [cursor()] is caught and reported as ["down"]. *)
Lemma timeout_is_caught :
  (run probe w_timeout).1 = Raises (mk_exn TimeoutError "timed out") ∧
  isinstance (mk_exn TimeoutError "timed out") Exception = true ∧
  ∃ r, (run (get bare_request) w_timeout).1 = Returns r ∧
       data r !! "database" = Some "down".
Proof.
  split; [reflexivity|]. split; [reflexivity|].
  apply (get_catches_exception bare_request (start w_timeout)
           (mk_exn TimeoutError "timed out")); reflexivity.
Defined.

(** A [KeyboardInterrupt] raised by [cursor()] is an error of the probe
    that [get] does not catch: it comes out of [get], and no body is
    returned. *)
Lemma keyboard_interrupt_escapes_get :
  (run probe w_interrupted).1 = Raises (mk_exn KeyboardInterrupt "") ∧
  issubclass KeyboardInterrupt BaseException = true ∧
  (run (get busy_request) w_interrupted).1 = Raises (mk_exn KeyboardInterrupt "") ∧
  ¬ ∃ r, (run (get busy_request) w_interrupted).1 = Returns r.
Proof.
  split; [reflexivity|]. split; [reflexivity|]. split; [reflexivity|].
  intros [r Hr]. discriminate Hr.
Qed.

(** A healthy database is reported as ["up"]. *)
Lemma healthy_is_up :
  (run probe w_up).1 = Returns 7%nat ∧
  ∃ r, (run (get bare_request) w_up).1 = Returns r ∧
       data r !! "database" = Some "up".
Proof.
  split; [reflexivity|].
  apply (get_probe_ok_up bare_request (start w_up) 7%nat); reflexivity.
Defined.

(** When the lookup of the default connection raises, [get] reports
    ["down"] after one lookup and no [cursor()] call at all. *)
Lemma failed_lookup_asks_for_no_cursor :
  (run (get bare_request) w_unconfigured).1 = Returns (health "down") ∧
  events_since (start w_unconfigured) (run (get bare_request) w_unconfigured).2
  = [EvGetItem "default"] ∧
  cursor_calls (events_since (start w_unconfigured)
                             (run (get bare_request) w_unconfigured).2) = 0%nat.
Proof. repeat split; reflexivity. Qed.

(** Under the strict host, whose middleware would refuse it, the bare
    request is handed to [get] on the health route and answered. *)
Lemma bare_request_is_served :
  has_credentials bare_request = false ∧
  run (host_routing strict_host bare_request) w_up = (Returns tt, start w_up) ∧
  run (route_dispatch strict_host health_route bare_request) w_up
  = run (get bare_request) w_up ∧
  match (run (route_dispatch strict_host health_route bare_request) w_up).1 with
  | Returns r => status_code r = 200
  | Raises e => (run probe w_up).1 = Raises e ∧ isinstance e Exception = false
  end.
Proof.
  split; [reflexivity|]. split; [reflexivity|].
  apply (proj2 (proj2 (proj2 (proj2
           (health_view_needs_no_credentials (B := scripted) (Obj := unit)))))
           strict_host bare_request (start w_up) (start w_up)).
  reflexivity.
Defined.

(** A [SystemExit] raised by [cursor()] comes out of [get]. *)
Lemma system_exit_propagates :
  (run (get bare_request) w_exiting).1 = Raises (mk_exn SystemExit "1").
Proof.
  apply (get_propagates_outside_exception bare_request (start w_exiting)
           (mk_exn SystemExit "1")).
  split; reflexivity.
Defined.

(** The body of a healthy run, and two healthy runs whose probes return
    the cursors 7 and 9 answering alike. *)
Lemma body_of_healthy_run :
  (dom (data (health "up")) = ({[ "status"; "database" ]} : gset string) ∧
   data (health "up") !! "status" = Some "ok" ∧
   (data (health "up") !! "database" = Some "up" ∨
    data (health "up") !! "database" = Some "down")) ∧
  (run probe w_up).1 = Returns 7%nat ∧
  (run probe w_up_again).1 = Returns 9%nat ∧
  (run (get bare_request) w_up).1 = (run (get busy_request) w_up_again).1.
Proof.
  split; [|split; [reflexivity|split; [reflexivity|]]].
  - apply (proj1 (get_body_shape (B := scripted) (Obj := unit))
             bare_request (start w_up)).
    reflexivity.
  - apply (proj2 (get_body_shape (B := scripted) (Obj := unit))
             bare_request busy_request (start w_up) (start w_up_again) 7%nat 9%nat);
      reflexivity.
Defined.

(** The request that carries a token, a query string and a body is answered
    as the bare one is, from the same state and from a later state in which
    the probe fails the same way. *)
Lemma busy_request_answered_as_bare :
  run (get busy_request) w_timeout = run (get bare_request) w_timeout ∧
  (run (get busy_request) w_timeout).1 =
  (get bare_request (run (get bare_request) w_timeout).2).1.
Proof.
  split.
  - apply (proj1 (get_ignores_request (B := scripted) (Obj := unit))).
  - apply (proj2 (get_ignores_request (B := scripted) (Obj := unit))).
    reflexivity.
Defined.

(** A healthy run reports ["up"], and ["up"] there means a cursor was
    returned. *)
Lemma healthy_report_is_truthful :
  (run (get bare_request) w_up).1 = Returns (health "up") ∧
  (data (health "up") !! "database" = Some "up" ↔
   ∃ c, (run probe w_up).1 = Returns c) ∧
  (data (health "up") !! "database" = Some "down" ↔
   ∃ e, (run probe w_up).1 = Raises e ∧ isinstance e Exception = true).
Proof.
  split; [reflexivity|].
  apply (get_report_is_truthful bare_request (start w_up) (health "up")).
  reflexivity.
Defined.

(** A lookup that raises [ImproperlyConfigured] and a [cursor()] that times
    out are answered alike. *)
Lemma lookup_failure_answered_as_timeout :
  (run probe w_unconfigured).1 =
    Raises (mk_exn ImproperlyConfigured "You must define a 'default' database.") ∧
  (run probe w_timeout).1 = Raises (mk_exn TimeoutError "timed out") ∧
  (run (get bare_request) w_unconfigured).1 = (run (get busy_request) w_timeout).1.
Proof.
  split; [reflexivity|]. split; [reflexivity|].
  apply (get_swallows_error_detail bare_request busy_request
           (start w_unconfigured) (start w_timeout)
           (mk_exn ImproperlyConfigured "You must define a 'default' database.")
           (mk_exn TimeoutError "timed out")); reflexivity.
Defined.

(** Three requests against a database that times out. *)
Lemma three_requests_three_lookups :
  length (run (serve [bare_request; busy_request; bare_request]) w_timeout).1 = 3%nat ∧
  self_dict (run (serve [bare_request; busy_request; bare_request]) w_timeout).2 = ∅ ∧
  getitem_calls
    (events_since (start w_timeout)
       (run (serve [bare_request; busy_request; bare_request]) w_timeout).2) = 3%nat ∧
  (cursor_calls
     (events_since (start w_timeout)
        (run (serve [bare_request; busy_request; bare_request]) w_timeout).2) ≤ 3)%nat.
Proof.
  apply (serve_probes_once_each [bare_request; busy_request; bare_request]
           (start w_timeout)).
Defined.

(** The read-only collaborator is left as it was, and a second request gets
    the answer of the first. *)
Lemma readonly_run_repeats :
  world (get bare_request (start_readonly w_auth_failure)).2 = w_auth_failure ∧
  ∀ request',
    (get request' (get bare_request (start_readonly w_auth_failure)).2).1 =
    (get bare_request (start_readonly w_auth_failure)).1.
Proof.
  apply (get_readonly_on_readonly_collaborator (B := scripted_readonly)
           bare_request (start_readonly w_auth_failure)); reflexivity.
Defined.

(** In front of the read-only collaborator a request leaves the world as it
    found it, and the one that follows is answered as if it were the
    first. *)
Lemma readonly_view_is_unaffected :
  world (get bare_request (start_readonly w_up)).2 = w_up ∧
  ∀ request',
    (get request' (get bare_request (start_readonly w_up)).2).1 =
    (get request' (start_readonly w_up)).1 ∧
    world (get request' (get bare_request (start_readonly w_up)).2).2 =
    world (get request' (start_readonly w_up)).2 ∧
    world (get request' (get bare_request (start_readonly w_up)).2).2 = w_up.
Proof.
  apply (proj2 (proj2 (proj2 (proj2 (proj2
           (get_is_stateless (B := scripted_readonly)
              bare_request (start_readonly w_up)))))));
    reflexivity.
Defined.
